(** * jax_privacy: virtual batching and evaluation metrics

  A shallow embedding of
  - [jax_privacy/src/training/batching.py] (class [VirtualBatching]) and
  - [experiments/image_classification/metrics.py]
    (class [ArrayConcatenater], function [per_class_disparity]),
  followed by the properties of these programs.

  Python integers are unbounded and are modelled by [Z]; [//] and [%] are
  Python's floor division and modulo, which coincide with [Z.div] and
  [Z.modulo] for a non-zero divisor and raise [ZeroDivisionError]
  otherwise.  Exceptions are explicit: fallible code returns a [result]. *)

From Stdlib Require Import ZArith QArith Lia Lqa.
From stdpp Require Import gmap strings list fin_maps sorting pretty.

Local Open Scope Z_scope.

(** ** Python values, exceptions and arithmetic *)

Module Py.

(** The exceptions the embedded code can raise. *)
Inductive exception : Type :=
| ValueError (msg : string)
| ZeroDivisionError.

Inductive result (A : Type) : Type :=
| Ok (a : A)
| Raise (e : exception).
Arguments Ok {A} a.
Arguments Raise {A} e.

Definition bind {A B} (k : A → result B) (r : result A) : result B :=
  match r with
  | Ok a => k a
  | Raise e => Raise e
  end.

(** [a // b] on Python integers. *)
Definition floordiv (a b : Z) : result Z :=
  if decide (b = 0) then Raise ZeroDivisionError else Ok (a / b).

(** [a % b] on Python integers. *)
Definition mod_ (a b : Z) : result Z :=
  if decide (b = 0) then Raise ZeroDivisionError else Ok (a `mod` b).

(** Truth value of an integer used as a condition. *)
Definition truthy (z : Z) : bool := negb (z =? 0).

(** The spec's error taxonomy names the constructor failure
    [InvalidParameter]; the code raises it as a [ValueError]. *)
Definition InvalidParameter (e : exception) : Prop :=
  match e with
  | ValueError _ => True
  | ZeroDivisionError => False
  end.

(** [a[:k]] on a sequence: the first [k] elements for [0 <= k], all but
    the last [-k] elements for [k < 0]. *)
Definition slice_to {A} (k : Z) (a : list A) : list A :=
  if decide (0 ≤ k) then take (Z.to_nat k) a
  else take (length a - Z.to_nat (- k))%nat a.

End Py.

#[export] Instance result_ret : MRet Py.result := @Py.Ok.
#[export] Instance result_bind : MBind Py.result := @Py.bind.

(** ** The runtime environment

  [jax.device_count()] reads the number of devices of the process the
  program runs in; the environment is an explicit argument of whatever
  calls it. *)

Module jax.
Record runtime : Type := { device_count : Z }.
End jax.

(** ** optax.piecewise_constant_schedule *)

Module optax.

(** The closure returned by [piecewise_constant_schedule], represented by
    the two values it captures. *)
Record Schedule : Type := {
  init_value : Z;
  boundaries_and_scales : option (gmap Z Z);
}.

(** Order of [sorted(boundaries_and_scales.items())]: keys of a dict are
    distinct, so pairs are ordered by their boundary. *)
Definition boundary_le (a b : Z * Z) : Prop := a.1 ≤ b.1.

#[export] Instance boundary_le_dec a b : Decision (boundary_le a b) :=
  Z_le_dec _ _.

Definition sorted_items (m : gmap Z Z) : list (Z * Z) :=
  merge_sort boundary_le (map_to_list m).

(** One iteration of the loop of [schedule]:
    [indicator = maximum(0, sign(threshold - count))] and
    [v = v * indicator + (1 - indicator) * scale * v]. *)
Definition schedule_step (count : Z) (v : Z) (item : Z * Z) : Z :=
  let '(threshold, scale) := item in
  let indicator := Z.max 0 (Z.sgn (threshold - count)) in
  v * indicator + (1 - indicator) * scale * v.

(** Modelled from the spec: [optax] is a library the repository imports;
    its source is not part of the repository.  The spec describes the
    schedule as piecewise constant, given as a mapping from step boundary
    to scale factor.  The definition follows the library function of that
    name: it refuses a negative scale factor with a [ValueError], and the
    schedule it returns starts from [init_value] and multiplies it by the
    scale of every boundary that [count] has reached, visiting the
    boundaries in increasing order.  The scale factors are integers, as
    [VirtualBatching] declares them ([Dict[int, int]]); the array
    arithmetic of the library is taken to be exact on them. *)
Definition piecewise_constant_schedule
    (init_value : Z) (boundaries_and_scales : option (gmap Z Z))
    : Py.result Schedule :=
  let all_positive :=
    match boundaries_and_scales with
    | Some m => forallb (fun item : Z * Z => 0 <=? item.2) (map_to_list m)
    | None => true
    end in
  if all_positive then
    Py.Ok {| init_value := init_value;
             boundaries_and_scales := boundaries_and_scales |}
  else
    Py.Raise (Py.ValueError
      "`piecewise_constant_schedule` expects non-negative scale factors").

Definition schedule (s : Schedule) (count : Z) : Z :=
  match boundaries_and_scales s with
  | Some m => foldl (schedule_step count) (init_value s) (sorted_items m)
  | None => init_value s
  end.

(** A schedule the library accepts: no negative scale factor. *)
Definition accepted (s : option (gmap Z Z)) : Prop :=
  ∀ m, s = Some m → map_Forall (λ _ scale, 0 ≤ scale) m.

(** A schedule that never shrinks the batch size to nothing: every scale
    factor is at least one. *)
Definition positive_scales (s : option (gmap Z Z)) : Prop :=
  ∀ m, s = Some m → map_Forall (λ _ scale, 1 ≤ scale) m.

(** The boundaries a step has reached: the boundary step itself counts. *)
Definition reached (count : Z) (item : Z * Z) : Prop := item.1 ≤ count.

#[export] Instance reached_dec count item : Decision (reached count item) :=
  Z_le_dec _ _.

Definition product (l : list Z) : Z := foldr Z.mul 1 l.

(** The product of the scale factors of the boundaries that [count] has
    reached: what a piecewise constant schedule with multiplicative scales
    is expected to have applied to its initial value at step [count]. *)
Definition scale_product (m : gmap Z Z) (count : Z) : Z :=
  product ((λ item : Z * Z, item.2) <$> filter (reached count) (map_to_list m)).

End optax.

(** ** batching.py: class VirtualBatching *)

Module VirtualBatching.

(** The attributes of an object.  [scale_schedule] is the caller's dict; no
    method of the class writes to it, and it is modelled by its value. *)
Record t : Type := {
  batch_size_init : Z;
  batch_size_per_device_per_step : Z;
  scale_schedule : option (gmap Z Z);
  num_devices : Z;
  _batch_size_fn : optax.Schedule;
}.

(** Property [batch_size_per_step]. *)
Definition batch_size_per_step (self : t) : Z :=
  batch_size_per_device_per_step self * num_devices self.

(** [num_devices if num_devices is not None else jax.device_count()]: the
    device count [__init__] stores. *)
Definition resolved_devices (env : jax.runtime) (n : option Z) : Z :=
  match n with
  | Some n => n
  | None => jax.device_count env
  end.

(** [__init__].  The four attributes are assigned first; the property
    [batch_size_per_step] is then read from the object under
    construction, whose [_batch_size_fn] is not yet set.  [env] is the
    process [jax.device_count()] would be evaluated in. *)
Definition __init__ (env : jax.runtime)
    (batch_size_init : Z) (batch_size_per_device_per_step : Z)
    (scale_schedule : option (gmap Z Z)) (num_devices : option Z)
    : Py.result t :=
  let num_devices := resolved_devices env num_devices in
  let per_step := batch_size_per_device_per_step * num_devices in
  r ← Py.mod_ batch_size_init per_step;
  if Py.truthy r then
    Py.Raise (Py.ValueError
      ("Batch-size " +:+ pretty batch_size_init +:+ " not divisible by "
       +:+ pretty batch_size_per_device_per_step +:+ " * "
       +:+ pretty num_devices))
  else
    fn ← optax.piecewise_constant_schedule batch_size_init scale_schedule;
    Py.Ok {| batch_size_init := batch_size_init;
             batch_size_per_device_per_step := batch_size_per_device_per_step;
             scale_schedule := scale_schedule;
             num_devices := num_devices;
             _batch_size_fn := fn |}.

(** [batch_size(global_step)]: total batch-size at a given step. *)
Definition batch_size (self : t) (global_step : Z) : Z :=
  optax.schedule (_batch_size_fn self) global_step.

(** [apply_update_every(global_step)]. *)
Definition apply_update_every (self : t) (global_step : Z) : Py.result Z :=
  Py.floordiv (batch_size self global_step) (batch_size_per_step self).

(** [data_seen(global_step)]. *)
Definition data_seen (self : t) (global_step : Z) : Z :=
  global_step * batch_size_per_step self.

(** Calls on an object.  A method receives the object and leaves an
    object behind; none of the four queries assigns to an attribute, so
    each leaves the object it received. *)
Inductive query : Type :=
| BatchSize (global_step : Z)
| BatchSizePerStep
| ApplyUpdateEvery (global_step : Z)
| DataSeen (global_step : Z).

Definition call (q : query) (self : t) : Py.result Z * t :=
  match q with
  | BatchSize s => (Py.Ok (batch_size self s), self)
  | BatchSizePerStep => (Py.Ok (batch_size_per_step self), self)
  | ApplyUpdateEvery s => (apply_update_every self s, self)
  | DataSeen s => (Py.Ok (data_seen self s), self)
  end.

(** The answer to a call written as a function of the constructor's
    arguments (the device count being the one [__init__] stores) and of the
    step alone. *)
Definition answer (batch_size_init batch_size_per_device_per_step : Z)
    (scale_schedule : option (gmap Z Z)) (num_devices : Z) (q : query)
    : Py.result Z :=
  let total global_step :=
    optax.schedule
      {| optax.init_value := batch_size_init;
         optax.boundaries_and_scales := scale_schedule |} global_step in
  let per_step := batch_size_per_device_per_step * num_devices in
  match q with
  | BatchSize global_step => Py.Ok (total global_step)
  | BatchSizePerStep => Py.Ok per_step
  | ApplyUpdateEvery global_step => Py.Ok (total global_step / per_step)
  | DataSeen global_step => Py.Ok (global_step * per_step)
  end.

(** A sequence of calls on one object: the answers, in order, and the
    object afterwards. *)
Fixpoint calls (qs : list query) (self : t) : list (Py.result Z) * t :=
  match qs with
  | [] => ([], self)
  | q :: qs' =>
      let '(r, self') := call q self in
      let '(rs, self'') := calls qs' self' in
      (r :: rs, self'')
  end.

End VirtualBatching.

(** ** numpy: floating-point scalars

    A [float64] is modelled by its value: a rational, or [nan] ([None]).
    Rounding is not modelled.  The infinities are left out: in the code
    below a division by zero only ever has a zero numerator (a diagonal
    count over the sum of its row, the trace over the total), and the one
    division of floats is guarded by [avg_acc != 1]. *)

Module np.

Definition float : Type := option Q.

Definition of_Z (z : Z) : float := Some (inject_Z z).

(** [a / b] on integer counts: true division, [0 / 0 = nan]. *)
Definition true_divide (a b : nat) : float :=
  if decide (b = 0%nat) then None
  else Some (inject_Z (Z.of_nat a) / inject_Z (Z.of_nat b))%Q.

Definition sub (x y : float) : float :=
  match x, y with
  | Some a, Some b => Some (a - b)%Q
  | _, _ => None
  end.

Definition div (x y : float) : float :=
  match x, y with
  | Some a, Some b => if Qeq_bool b 0 then None else Some (a / b)%Q
  | _, _ => None
  end.

(** Comparisons: any comparison with [nan] is false, except [!=]. *)
Definition lt (x y : float) : bool :=
  match x, y with
  | Some a, Some b => match (a ?= b)%Q with Lt => true | _ => false end
  | _, _ => false
  end.

Definition gt (x y : float) : bool := lt y x.

Definition ne (x y : float) : bool :=
  match x, y with
  | Some a, Some b => negb (Qeq_bool a b)
  | _, _ => true
  end.

(** A two-dimensional square array of counts, as [confusion_matrix]
    returns it: [entry i j] is the element at row [i], column [j], for
    [i, j < dim]. *)
Record square : Type := {
  dim : nat;
  entry : nat → nat → nat;
}.

Definition sum_nat (l : list nat) : nat := foldr Nat.add 0%nat l.

(** [cm.diagonal()] *)
Definition diagonal (cm : square) : list nat :=
  (λ i, entry cm i i) <$> seq 0 (dim cm).

(** [cm.sum(axis=1)]: the sum of each row. *)
Definition sum_axis1 (cm : square) : list nat :=
  (λ i, sum_nat (entry cm i <$> seq 0 (dim cm))) <$> seq 0 (dim cm).

(** [cm.sum()] *)
Definition sum (cm : square) : nat := sum_nat (sum_axis1 cm).

(** [x + y] on floats. *)
Definition add (x y : float) : float :=
  match x, y with
  | Some a, Some b => Some (a + b)%Q
  | _, _ => None
  end.

(** [b == x] for a boolean [b] and a float [x]: [True] is [1], [False] is
    [0], and [nan] equals nothing. *)
Definition bool_eq (b : bool) (x : float) : bool :=
  match x with
  | Some q => Qeq_bool (if b then 1 else 0) q
  | None => false
  end.

End np.

(** ** metrics.py: class ArrayConcatenater

    An array is modelled by the list of its elements along the first axis,
    the only axis [len], slicing and [np.concatenate] act on. *)

Module ArrayConcatenater.

Record t (A : Type) : Type := {
  _array : list (list A);
  _max_len : option Z;
  _current_len : Z;
}.
Arguments _array {A} _.
Arguments _max_len {A} _.
Arguments _current_len {A} _.

Definition __init__ {A} (max_len : option Z) : t A :=
  {| _array := []; _max_len := max_len; _current_len := 0 |}.

(** The value of [to_append] chosen by the first conditional of [append];
    [None] is Python's [None]. *)
Definition to_append {A} (self : t A) (array : list A) : option (list A) :=
  match _max_len self with
  | None => Some array
  | Some max_len =>
      if decide (_current_len self < max_len)
      then Some (Py.slice_to (max_len - _current_len self) array)
      else None
  end.

Definition append {A} (self : t A) (array : list A) : t A :=
  match to_append self array with
  | Some chunk =>
      {| _array := _array self ++ [chunk];
         _max_len := _max_len self;
         _current_len := _current_len self + Z.of_nat (length chunk) |}
  | None => self
  end.

(** [np.concatenate] refuses an empty sequence of arrays. *)
Definition asarray {A} (self : t A) : Py.result (list A) :=
  match _array self with
  | [] => Py.Raise (Py.ValueError "need at least one array to concatenate")
  | _ => Py.Ok (concat (_array self))
  end.

(** A sequence of [append] calls, in order. *)
Definition appends {A} (self : t A) (arrays : list (list A)) : t A :=
  foldl append self arrays.

(** What holds of a concatenater with bound [max_len] that has been fed
    [arrays]: the bound is kept, the counter is the length of what is
    stored, what is stored is the first [max_len] elements of what was
    fed, and something is stored only if the bound is positive. *)
Record fed {A} (max_len : Z) (arrays : list (list A)) (c : t A) : Prop := {
  fed_max_len : _max_len c = Some max_len;
  fed_current_len : _current_len c = Z.of_nat (length (concat (_array c)));
  fed_stored : concat (_array c) = take (Z.to_nat max_len) (concat arrays);
  fed_nonempty : _array c ≠ [] → 0 < max_len;
  fed_started : 0 < max_len → arrays ≠ [] → _array c ≠ [];
}.

End ArrayConcatenater.

(** ** metrics.py: per_class_disparity *)

Module metrics.

(** [zip(a, b, c, strict=True)], run to the end.  The loop of
    [per_class_disparity] only writes to local variables, so raising after
    some iterations and raising before the first one are the same to the
    caller. *)
Fixpoint zip_strict {A B C} (a : list A) (b : list B) (c : list C)
    : Py.result (list (A * B * C)) :=
  match a, b, c with
  | [], [], [] => Py.Ok []
  | x :: a', y :: b', z :: c' =>
      rest ← zip_strict a' b' c'; Py.Ok ((x, y, z) :: rest)
  | [], _ :: _, _ =>
      Py.Raise (Py.ValueError "zip() argument 2 is longer than argument 1")
  | [], [], _ :: _ =>
      Py.Raise (Py.ValueError "zip() argument 3 is longer than arguments 1-2")
  | _ :: _, [], _ =>
      Py.Raise (Py.ValueError "zip() argument 2 is shorter than argument 1")
  | _ :: _, _ :: _, [] =>
      Py.Raise (Py.ValueError "zip() argument 3 is shorter than arguments 1-2")
  end.

(** [cm.diagonal().sum() / cm.sum()] *)
Definition avg_acc_of (cm : np.square) : np.float :=
  np.true_divide (np.sum_nat (np.diagonal cm)) (np.sum cm).

(** [(cm.astype('float') / cm.sum(axis=1)).diagonal()].  The row sums are
    broadcast along the last axis, so the element at [(i, j)] of the
    quotient is [cm[i, j] / cm.sum(axis=1)[j]]; its diagonal divides
    [cm[i, i]] by the sum of row [i]. *)
Definition per_class_mean_of (cm : np.square) : list np.float :=
  zip_with np.true_divide (np.diagonal cm) (np.sum_axis1 cm).

(** The local variables the loop updates. *)
Record locals : Type := {
  stats : gmap string np.float;
  min_disparity_abs : np.float;
  max_disparity_rel : np.float;
}.

(** The body of the [for] loop, for one [(class_name, class_acc, class_f1)]. *)
Definition loop_body (avg_acc : np.float) (l : locals)
    (item : string * np.float * np.float) : locals :=
  let '(class_name, class_acc, class_f1) := item in
  let stats := <["acc_" +:+ class_name := class_acc]> (stats l) in
  let stats := <["f1_" +:+ class_name := class_f1]> stats in
  let acc_disp := np.sub class_acc avg_acc in
  let min_disparity_abs :=
    if np.lt acc_disp (min_disparity_abs l) then acc_disp
    else min_disparity_abs l in
  let max_disparity_rel :=
    if np.ne avg_acc (np.of_Z 1) then
      let rel_disp :=
        np.div (np.sub (np.of_Z 1) class_acc) (np.sub (np.of_Z 1) avg_acc) in
      if np.gt rel_disp (max_disparity_rel l) then rel_disp
      else max_disparity_rel l
    else max_disparity_rel l in
  {| stats := stats;
     min_disparity_abs := min_disparity_abs;
     max_disparity_rel := max_disparity_rel |}.

(** [m] is the least of [0] and the differences [class_acc - avg_acc],
    taken over the classes whose accuracy is a number. *)
Definition capped_min (avg_acc : np.float) (accs : list np.float) (m : Q)
    : Prop :=
  (m <= 0)%Q
  ∧ (∀ c a, Some c ∈ accs → avg_acc = Some a → (m <= c - a)%Q)
  ∧ (m = 0%Q
     ∨ ∃ c a, Some c ∈ accs ∧ avg_acc = Some a ∧ m = (c - a)%Q).

(** [r] is the greatest of [1] and the ratios
    [(1 - class_acc) / (1 - avg_acc)], taken over the classes whose
    accuracy is a number, the ratios counting only when [avg_acc] is not
    [1]. *)
Definition floored_max (avg_acc : np.float) (accs : list np.float) (r : Q)
    : Prop :=
  (1 <= r)%Q
  ∧ (∀ c a, Some c ∈ accs → avg_acc = Some a → ¬ (a == 1)%Q →
       ((1 - c) / (1 - a) <= r)%Q)
  ∧ (r = 1%Q
     ∨ ∃ c a, Some c ∈ accs ∧ avg_acc = Some a ∧ ¬ (a == 1)%Q
              ∧ r = ((1 - c) / (1 - a))%Q).

(** The loop invariant: after the classes with accuracies [accs], both
    running values are numbers, the least and the greatest in the sense
    above. *)
Definition loop_invariant (avg_acc : np.float) (accs : list np.float)
    (l : locals) : Prop :=
  ∃ m r, min_disparity_abs l = Some m ∧ max_disparity_rel l = Some r
         ∧ capped_min avg_acc accs m ∧ floored_max avg_acc accs r.

Section per_class_disparity.

(** The library functions the code calls, as parameters: [jnp.argmax(_,
    axis=1)] on the arrays the caller passes, [sklearn]'s
    [confusion_matrix(y_true, y_pred)] and
    [f1_score(y_true, y_pred, labels=_, average=None)]. *)
Context {Array : Type}.
Variable argmax : Array → Py.result (list nat).
Variable confusion_matrix : list nat → list nat → Py.result np.square.
Variable f1_score :
  list nat → list nat → list nat → Py.result (list np.float).

Definition per_class_disparity
    (logits labels : Array) (class_names : list string)
    : Py.result (gmap string np.float) :=
  predictions ← argmax logits;
  labels ← argmax labels;
  cm ← confusion_matrix labels predictions;
  let avg_acc := avg_acc_of cm in
  let per_class_mean := per_class_mean_of cm in
  per_class_f1 ← f1_score labels predictions (seq 0 (length class_names));
  items ← zip_strict class_names per_class_mean per_class_f1;
  let l :=
    foldl (loop_body avg_acc)
      {| stats := ∅;
         min_disparity_abs := np.of_Z 0;
         max_disparity_rel := np.of_Z 1 |}
      items in
  let stats := <["min_disparity_abs" := min_disparity_abs l]> (stats l) in
  let stats := <["max_disparity_rel" := max_disparity_rel l]> stats in
  Py.Ok stats.

End per_class_disparity.

(** *** per_class_acc *)

(** The two arguments of [per_class_acc], of the one shape
    [[batch size, number of classes]] its docstring gives them:
    [logit i j] and [label i j] are the elements at row [i], column [j]. *)
Record scored : Type := {
  batch : nat;
  classes : nat;
  logit : nat → nat → np.float;
  label : nat → nat → np.float;
}.

Section per_class_acc.

(** [jax.nn.sigmoid], elementwise. *)
Variable sigmoid : np.float → np.float.

(** [predictions = probs > 0.5] at one element. *)
Definition prediction (a : scored) (i j : nat) : bool :=
  np.gt (sigmoid (logit a i j)) (Some (1 # 2)).

(** [(predictions == labels).astype(jnp.int32)] at one element. *)
Definition acc (a : scored) (i j : nat) : nat :=
  if np.bool_eq (prediction a i j) (label a i j) then 1%nat else 0%nat.

(** [jnp.mean(acc, axis=0)]: for each class the mean over the batch, [nan]
    for an empty batch. *)
Definition per_class_acc (a : scored) : list np.float :=
  (λ j, np.true_divide
          (np.sum_nat ((λ i, acc a i j) <$> seq 0 (batch a)))
          (batch a))
  <$> seq 0 (classes a).

End per_class_acc.

(** *** avg_and_per_class_auc *)

(** The local variables the loop of [avg_and_per_class_auc] updates. *)
Record auc_locals : Type := {
  auc_stats : gmap string np.float;
  auc_macro : np.float;
}.

Section avg_and_per_class_auc.

(** The library calls, as parameters: [jax.nn.sigmoid] on the array of
    logits, [roc_auc_score(labels.reshape(-1), probs.reshape(-1))] and, for
    a class index, [roc_auc_score(labels[:, class_ind],
    probs[:, class_ind])]. *)
Context {Array : Type}.
Variable sigmoid : Array → Array.
Variable roc_auc_score_flat : Array → Array → Py.result np.float.
Variable roc_auc_score_class : Array → Array → nat → Py.result np.float.

(** The [for] loop over [enumerate(class_names)], from index [class_ind]
    on. *)
Fixpoint auc_loop (labels probs : Array) (class_ind : nat)
    (class_names : list string) (l : auc_locals) : Py.result auc_locals :=
  match class_names with
  | [] => Py.Ok l
  | class_name :: class_names' =>
      class_auc ← roc_auc_score_class labels probs class_ind;
      auc_loop labels probs (S class_ind) class_names'
        {| auc_stats := <["auc_" +:+ class_name := class_auc]> (auc_stats l);
           auc_macro := np.add (auc_macro l) class_auc |}
  end.

(** [avg_and_per_class_auc].  The final division has a Python [float]
    numerator when the loop did not run ([0.0 / 0] raises) and a non-zero
    divisor otherwise. *)
Definition avg_and_per_class_auc
    (logits labels : Array) (class_names : list string)
    : Py.result (gmap string np.float) :=
  let probs := sigmoid logits in
  auc ← roc_auc_score_flat labels probs;
  let stats := <["auc" := auc]> ∅ in
  l ← auc_loop labels probs 0 class_names
        {| auc_stats := stats; auc_macro := np.of_Z 0 |};
  match class_names with
  | [] => Py.Raise Py.ZeroDivisionError
  | _ :: _ =>
      Py.Ok (<["auc_macro" :=
                 np.div (auc_macro l)
                        (np.of_Z (Z.of_nat (length class_names)))]>
               (auc_stats l))
  end.

End avg_and_per_class_auc.

End metrics.

(** ** Instances of the library functions

    Executable stand-ins for [jnp.argmax], [confusion_matrix] and
    [f1_score], used to run [per_class_disparity] on concrete arrays.  The
    properties of [per_class_disparity] below do not depend on them. *)

Module reference.

(** Index of the first largest element of a row. *)
Fixpoint argmax_row (best : Q) (best_i i : nat) (row : list Q) : nat :=
  match row with
  | [] => best_i
  | x :: row' =>
      match (best ?= x)%Q with
      | Lt => argmax_row x i (S i) row'
      | _ => argmax_row best best_i (S i) row'
      end
  end.

Definition argmax (a : list (list Q)) : Py.result (list nat) :=
  mapM (M := Py.result) (λ row,
    match row with
    | [] => Py.Raise
        (Py.ValueError "attempt to get argmax of an empty sequence")
    | x :: row' => Py.Ok (argmax_row x 0 1 row')
    end) a.

(** The labels that occur, in increasing order. *)
Definition unique_labels (y_true y_pred : list nat) : list nat :=
  merge_sort Nat.le (remove_dups (y_true ++ y_pred)).

Definition count (t p : nat) (pairs : list (nat * nat)) : nat :=
  length (filter (λ tp : nat * nat, tp.1 = t ∧ tp.2 = p) pairs).

Definition confusion_matrix (y_true y_pred : list nat)
    : Py.result np.square :=
  if decide (length y_true ≠ length y_pred) then
    Py.Raise (Py.ValueError
      "Found input variables with inconsistent numbers of samples")
  else
    let labels := unique_labels y_true y_pred in
    match labels with
    | [] => Py.Raise
        (Py.ValueError "'labels' should contains at least one label.")
    | _ =>
        Py.Ok {| np.dim := length labels;
                 np.entry := λ i j,
                   match labels !! i, labels !! j with
                   | Some t, Some p => count t p (zip y_true y_pred)
                   | _, _ => 0%nat
                   end |}
    end.

Definition f1_of (pairs : list (nat * nat)) (c : nat) : np.float :=
  let tp := count c c pairs in
  let predicted := length (filter (λ tp : nat * nat, tp.2 = c) pairs) in
  let actual := length (filter (λ tp : nat * nat, tp.1 = c) pairs) in
  if decide (predicted + actual = 0)%nat then np.of_Z 0
  else np.true_divide (2 * tp) (predicted + actual).

Definition f1_score (y_true y_pred labels : list nat)
    : Py.result (list np.float) :=
  Py.Ok (f1_of (zip y_true y_pred) <$> labels).

End reference.

(** ** Concrete inputs

    The configuration of the module docstring of [batching.py]
    ([batch_size_init=128], [batch_size_per_device_per_step=32],
    [num_devices=2]), two hosts that differ in their device count, and a
    schedule that multiplies the batch size by 4 from step 3 on and by 2
    again from step 10 on. *)

Module example.

Definition host (devices : Z) : jax.runtime :=
  {| jax.device_count := devices |}.

Definition schedule_4_2 : gmap Z Z := <[10 := 2]> (<[3 := 4]> ∅).

Definition batching (init : Z) (s : option (gmap Z Z)) : VirtualBatching.t :=
  {| VirtualBatching.batch_size_init := init;
     VirtualBatching.batch_size_per_device_per_step := 32;
     VirtualBatching.scale_schedule := s;
     VirtualBatching.num_devices := 2;
     VirtualBatching._batch_size_fn :=
       {| optax.init_value := init;
          optax.boundaries_and_scales := s |} |}.

(** Six samples of three classes: the logits and the one-hot labels.  The
    fourth sample, of class [b], is predicted as [a]. *)
Definition logits : list (list Q) :=
  [[3; 1; 0]; [0; 2; 1]; [1; 0; 5]; [4; 0; 1]; [0; 0; 1]; [0; 1; 0]]%Q.

Definition labels : list (list Q) :=
  [[1; 0; 0]; [0; 1; 0]; [0; 0; 1]; [0; 1; 0]; [0; 0; 1]; [0; 1; 0]]%Q.

Definition class_names : list string := ["a"; "b"; "c"]%string.

End example.

(** * Properties *)

(** ** Python arithmetic *)

Lemma mod_Ok a b r : Py.mod_ a b = Py.Ok r → b ≠ 0 ∧ r = a `mod` b.
Proof.
  unfold Py.mod_. destruct (decide (b = 0)); [discriminate|].
  intros [= <-]. done.
Qed.

Lemma mod_nonzero a b : b ≠ 0 → Py.mod_ a b = Py.Ok (a `mod` b).
Proof. intros Hb. unfold Py.mod_. by destruct (decide (b = 0)). Qed.

Lemma floordiv_nonzero a b : b ≠ 0 → Py.floordiv a b = Py.Ok (a / b).
Proof. intros Hb. unfold Py.floordiv. by destruct (decide (b = 0)). Qed.

Lemma truthy_false z : Py.truthy z = false ↔ z = 0.
Proof.
  unfold Py.truthy. destruct (Z.eqb_spec z 0); simpl; split; intros; done.
Qed.

Lemma truthy_true z : Py.truthy z = true ↔ z ≠ 0.
Proof.
  unfold Py.truthy. destruct (Z.eqb_spec z 0); simpl; split; intros; done.
Qed.

(** ** The schedule *)

(** The indicator is one strictly before the boundary and zero from the
    boundary on. *)
Lemma indicator_spec threshold count :
  Z.max 0 (Z.sgn (threshold - count)) = if decide (count < threshold) then 1 else 0.
Proof.
  destruct (decide (count < threshold)).
  - rewrite Z.sgn_pos by lia. lia.
  - destruct (Z.sgn_spec (threshold - count)) as [[? ->]|[[? ->]|[? ->]]]; lia.
Qed.

Lemma schedule_step_spec count v threshold scale :
  optax.schedule_step count v (threshold, scale) =
  if decide (count < threshold) then v else scale * v.
Proof.
  unfold optax.schedule_step. rewrite indicator_spec.
  destruct (decide (count < threshold)); lia.
Qed.

Lemma schedule_step_divide d count v item :
  (d | v) → (d | optax.schedule_step count v item).
Proof.
  intros Hd. destruct item as [threshold scale].
  rewrite schedule_step_spec. destruct (decide _); [done|].
  by apply Z.divide_mul_r.
Qed.

Lemma schedule_fold_divide d count items v :
  (d | v) → (d | foldl (optax.schedule_step count) v items).
Proof.
  revert v. induction items as [|item items IH]; intros v Hd; simpl; [done|].
  apply IH. by apply schedule_step_divide.
Qed.

Lemma schedule_divide d s count :
  (d | optax.init_value s) → (d | optax.schedule s count).
Proof.
  intros Hd. unfold optax.schedule.
  destruct (optax.boundaries_and_scales s); [|done].
  by apply schedule_fold_divide.
Qed.

Lemma sorted_items_Forall (P : Z → Z → Prop) (m : gmap Z Z) :
  map_Forall P m → Forall (uncurry P) (optax.sorted_items m).
Proof.
  intros Hm. unfold optax.sorted_items.
  rewrite merge_sort_Permutation. by apply map_Forall_to_list.
Qed.

(** With scale factors of at least one, the schedule keeps a positive
    multiple of [d] a positive multiple of [d]. *)
Lemma schedule_fold_multiple d count items k :
  Forall (uncurry (λ _ scale : Z, 1 ≤ scale)) items →
  1 ≤ k →
  ∃ k', 1 ≤ k' ∧ foldl (optax.schedule_step count) (k * d) items = k' * d.
Proof.
  intros Hitems. revert k.
  induction Hitems as [|[threshold scale] items Hscale _ IH]; intros k Hk;
    cbn [foldl].
  - by exists k.
  - rewrite schedule_step_spec. simpl in Hscale.
    destruct (decide (count < threshold)).
    + by apply IH.
    + replace (scale * (k * d)) with (scale * k * d) by lia.
      apply IH. nia.
Qed.

Lemma piecewise_constant_schedule_Ok init s fn :
  optax.piecewise_constant_schedule init s = Py.Ok fn →
  fn = {| optax.init_value := init; optax.boundaries_and_scales := s |}
  ∧ optax.accepted s.
Proof.
  unfold optax.piecewise_constant_schedule.
  destruct s as [m|]; simpl.
  - destruct (forallb _ _) eqn:Hall; [|discriminate].
    intros [= <-]. split; [done|].
    intros m' [= <-]. apply map_Forall_to_list.
    apply Forall_forall. intros [k scale] Hin.
    rewrite forallb_forall in Hall.
    apply list_elem_of_In, Hall in Hin. simpl in *. lia.
  - intros [= <-]. split; [done|]. intros m' [=].
Qed.

Lemma piecewise_constant_schedule_accepted init s :
  optax.accepted s →
  optax.piecewise_constant_schedule init s =
  Py.Ok {| optax.init_value := init; optax.boundaries_and_scales := s |}.
Proof.
  intros Hs. unfold optax.piecewise_constant_schedule.
  destruct s as [m|]; simpl; [|done].
  assert (forallb (λ item : Z * Z, 0 <=? item.2) (map_to_list m) = true) as ->;
    [|done].
  apply forallb_forall. intros [k scale] Hin. simpl.
  specialize (Hs m eq_refl). rewrite map_Forall_to_list, Forall_forall in Hs.
  apply list_elem_of_In, Hs in Hin. simpl in Hin. lia.
Qed.

(** ** VirtualBatching: what a successful construction establishes *)

Lemma init_Ok env b p s n vb :
  VirtualBatching.__init__ env b p s n = Py.Ok vb →
  p * VirtualBatching.resolved_devices env n ≠ 0
  ∧ b `mod` (p * VirtualBatching.resolved_devices env n) = 0
  ∧ optax.accepted s
  ∧ vb = {| VirtualBatching.batch_size_init := b;
            VirtualBatching.batch_size_per_device_per_step := p;
            VirtualBatching.scale_schedule := s;
            VirtualBatching.num_devices := VirtualBatching.resolved_devices env n;
            VirtualBatching._batch_size_fn :=
              {| optax.init_value := b;
                 optax.boundaries_and_scales := s |} |}.
Proof.
  unfold VirtualBatching.__init__. fold (VirtualBatching.resolved_devices env n).
  destruct (Py.mod_ b (p * VirtualBatching.resolved_devices env n)) as [r|e] eqn:Hmod;
    simpl; [|discriminate].
  apply mod_Ok in Hmod as [Hnz ->].
  destruct (Py.truthy _) eqn:Ht; [discriminate|].
  apply truthy_false in Ht.
  destruct (optax.piecewise_constant_schedule b s) as [fn|e] eqn:Hfn;
    simpl; [|discriminate].
  apply piecewise_constant_schedule_Ok in Hfn as [-> Hs].
  intros [= <-]. done.
Qed.

Lemma init_not_divisible env b p s n :
  p * VirtualBatching.resolved_devices env n ≠ 0 →
  b `mod` (p * VirtualBatching.resolved_devices env n) ≠ 0 →
  VirtualBatching.__init__ env b p s n =
  Py.Raise (Py.ValueError
    ("Batch-size " +:+ pretty b +:+ " not divisible by "
     +:+ pretty p +:+ " * " +:+ pretty (VirtualBatching.resolved_devices env n))).
Proof.
  intros Hnz Hmod. unfold VirtualBatching.__init__.
  fold (VirtualBatching.resolved_devices env n).
  rewrite mod_nonzero by done. simpl.
  apply truthy_true in Hmod. by rewrite Hmod.
Qed.

Lemma init_divisible env b p s n :
  p * VirtualBatching.resolved_devices env n ≠ 0 →
  b `mod` (p * VirtualBatching.resolved_devices env n) = 0 →
  optax.accepted s →
  VirtualBatching.__init__ env b p s n =
  Py.Ok {| VirtualBatching.batch_size_init := b;
           VirtualBatching.batch_size_per_device_per_step := p;
           VirtualBatching.scale_schedule := s;
           VirtualBatching.num_devices := VirtualBatching.resolved_devices env n;
           VirtualBatching._batch_size_fn :=
             {| optax.init_value := b;
                optax.boundaries_and_scales := s |} |}.
Proof.
  intros Hnz Hmod Hs. unfold VirtualBatching.__init__.
  fold (VirtualBatching.resolved_devices env n).
  rewrite mod_nonzero by done. simpl.
  apply truthy_false in Hmod. rewrite Hmod.
  by rewrite piecewise_constant_schedule_accepted.
Qed.

(** A modulus of zero is not reported as a [ValueError]: the [%] itself
    raises. *)
Lemma init_zero_modulus env b p s n :
  p * VirtualBatching.resolved_devices env n = 0 →
  VirtualBatching.__init__ env b p s n = Py.Raise Py.ZeroDivisionError.
Proof.
  intros Hz. unfold VirtualBatching.__init__. fold (VirtualBatching.resolved_devices env n).
  unfold Py.mod_. by destruct (decide _).
Qed.

(** ** VirtualBatching: construction *)

(** C1.  With a non-zero [batch_size_per_device_per_step * num_devices],
    constructing a [VirtualBatching] whose [batch_size_init] is not a
    multiple of it raises the [ValueError] the spec calls
    [InvalidParameter]; this is what happens for [batch_size_init=100],
    [batch_size_per_device_per_step=32], [num_devices=2]; and whenever
    [batch_size_init] is a multiple, construction (with a schedule the
    schedule library accepts, or none) returns an object. *)
Theorem init_checks_divisibility :
  (∀ env b p s n,
     p * VirtualBatching.resolved_devices env n ≠ 0 →
     b `mod` (p * VirtualBatching.resolved_devices env n) ≠ 0 →
     ∃ e, VirtualBatching.__init__ env b p s n = Py.Raise e
          ∧ Py.InvalidParameter e)
  ∧ (∀ env s,
       VirtualBatching.__init__ env 100 32 s (Some 2) =
       Py.Raise (Py.ValueError "Batch-size 100 not divisible by 32 * 2"))
  ∧ (∀ env b p s n,
       p * VirtualBatching.resolved_devices env n ≠ 0 →
       b `mod` (p * VirtualBatching.resolved_devices env n) = 0 →
       optax.accepted s →
       ∃ vb, VirtualBatching.__init__ env b p s n = Py.Ok vb).
Proof.
  split; [|split].
  - intros env b p s n Hnz Hmod. eexists. split.
    + by apply init_not_divisible.
    + exact I.
  - intros env s.
    by rewrite (init_not_divisible env 100 32 s (Some 2)).
  - intros env b p s n Hnz Hmod Hs. eexists. by apply init_divisible.
Qed.

Lemma init_checks_divisibility_witness :
  (∃ e, VirtualBatching.__init__ (example.host 1) 100 32 None (Some 2)
        = Py.Raise e ∧ Py.InvalidParameter e)
  ∧ (∃ vb, VirtualBatching.__init__ (example.host 1) 128 32
             (Some example.schedule_4_2) (Some 2) = Py.Ok vb).
Proof.
  destruct init_checks_divisibility as (Hbad & _ & Hgood). split.
  - apply (Hbad (example.host 1) 100 32 None (Some 2)); by vm_compute.
  - apply (Hgood (example.host 1) 128 32 (Some example.schedule_4_2) (Some 2));
      [by vm_compute | reflexivity |].
    intros m [= <-]. apply map_Forall_to_list.
    vm_compute. repeat constructor; discriminate.
Defined.

(** C2.  On every object a construction returns, whatever its schedule,
    the batch size at every step is an exact multiple of
    [batch_size_per_step]: [batch_size(global_step) % batch_size_per_step]
    evaluates to [0]. *)
Theorem batch_size_divisible env b p s n vb global_step :
  VirtualBatching.__init__ env b p s n = Py.Ok vb →
  Py.mod_ (VirtualBatching.batch_size vb global_step)
          (VirtualBatching.batch_size_per_step vb) = Py.Ok 0.
Proof.
  intros (Hnz & Hmod & _ & ->)%init_Ok.
  unfold VirtualBatching.batch_size, VirtualBatching.batch_size_per_step.
  simpl. rewrite mod_nonzero by done. f_equal.
  apply Z.mod_divide; [done|].
  apply schedule_divide. simpl. by apply Z.mod_divide.
Qed.

Lemma batch_size_divisible_witness :
  Py.mod_
    (VirtualBatching.batch_size
       (example.batching 128 (Some example.schedule_4_2)) 5)
    (VirtualBatching.batch_size_per_step
       (example.batching 128 (Some example.schedule_4_2))) = Py.Ok 0.
Proof.
  apply (batch_size_divisible (example.host 1) 128 32
           (Some example.schedule_4_2) (Some 2)).
  vm_compute. reflexivity.
Defined.

(** ** VirtualBatching: the queries *)

Lemma call_object q vb : (VirtualBatching.call q vb).2 = vb.
Proof. by destruct q. Qed.

Lemma calls_object qs vb : (VirtualBatching.calls qs vb).2 = vb.
Proof.
  revert vb. induction qs as [|q qs IH]; intros vb; simpl; [done|].
  pose proof (call_object q vb) as Hq.
  destruct (VirtualBatching.call q vb) as [r vb']. simpl in Hq. subst vb'.
  specialize (IH vb). destruct (VirtualBatching.calls qs vb) as [rs vb'].
  done.
Qed.

Lemma calls_answers qs vb :
  (VirtualBatching.calls qs vb).1 = (λ q, (VirtualBatching.call q vb).1) <$> qs.
Proof.
  revert vb. induction qs as [|q qs IH]; intros vb; simpl; [done|].
  pose proof (call_object q vb) as Hq.
  destruct (VirtualBatching.call q vb) as [r vb']. simpl in Hq. subst vb'.
  specialize (IH vb). destruct (VirtualBatching.calls qs vb) as [rs vb'].
  simpl in *. by rewrite IH.
Qed.

(** C3.  [batch_size_per_step] is the product of
    [batch_size_per_device_per_step] and [num_devices]: the product of the
    two constructor arguments on a constructed object, [64] for [32] and
    [2]; it takes no step, and no sequence of queries changes it. *)
Theorem batch_size_per_step_product :
  (∀ vb,
     VirtualBatching.batch_size_per_step vb =
     VirtualBatching.batch_size_per_device_per_step vb
     * VirtualBatching.num_devices vb)
  ∧ (∀ env b p s n vb,
       VirtualBatching.__init__ env b p s n = Py.Ok vb →
       VirtualBatching.batch_size_per_step vb =
       p * VirtualBatching.resolved_devices env n)
  ∧ (∀ env b s vb,
       VirtualBatching.__init__ env b 32 s (Some 2) = Py.Ok vb →
       VirtualBatching.batch_size_per_step vb = 64)
  ∧ (∀ vb qs,
       VirtualBatching.batch_size_per_step (VirtualBatching.calls qs vb).2 =
       VirtualBatching.batch_size_per_step vb).
Proof.
  repeat split.
  - intros env b p s n vb (_ & _ & _ & ->)%init_Ok. done.
  - intros env b s vb (_ & _ & _ & ->)%init_Ok. done.
  - intros vb qs. by rewrite calls_object.
Qed.

Lemma batch_size_per_step_product_witness :
  VirtualBatching.batch_size_per_step (example.batching 128 None) = 64.
Proof.
  destruct batch_size_per_step_product as (_ & _ & H64 & _).
  apply (H64 (example.host 1) 128 None). reflexivity.
Defined.

(** C4.  [apply_update_every(global_step)] is
    [batch_size(global_step) // batch_size_per_step]; on a constructed
    object the division is defined and returns the floor quotient; for
    [batch_size_init=128], [batch_size_per_device_per_step=32],
    [num_devices=2] and no schedule the object is constructed and the
    answer is [2] at every step. *)
Theorem apply_update_every_quotient :
  (∀ vb global_step,
     VirtualBatching.apply_update_every vb global_step =
     Py.floordiv (VirtualBatching.batch_size vb global_step)
                 (VirtualBatching.batch_size_per_step vb))
  ∧ (∀ env b p s n vb global_step,
       VirtualBatching.__init__ env b p s n = Py.Ok vb →
       VirtualBatching.apply_update_every vb global_step =
       Py.Ok (VirtualBatching.batch_size vb global_step
              / VirtualBatching.batch_size_per_step vb))
  ∧ (∀ env, ∃ vb,
       VirtualBatching.__init__ env 128 32 None (Some 2) = Py.Ok vb
       ∧ ∀ global_step,
           VirtualBatching.apply_update_every vb global_step = Py.Ok 2).
Proof.
  repeat split.
  - intros env b p s n vb global_step (Hnz & _ & _ & ->)%init_Ok.
    unfold VirtualBatching.apply_update_every.
    by rewrite floordiv_nonzero.
  - intros env. eexists. split; [reflexivity|]. intros global_step.
    reflexivity.
Qed.

Lemma apply_update_every_quotient_witness :
  VirtualBatching.apply_update_every
    (example.batching 128 (Some example.schedule_4_2)) 5 = Py.Ok 8.
Proof.
  destruct apply_update_every_quotient as (_ & Hq & _).
  rewrite (Hq (example.host 1) 128 32 (Some example.schedule_4_2) (Some 2));
    by vm_compute.
Defined.

(** C5, as the code has it.  On a constructed object whose
    [batch_size_init] and [batch_size_per_step] are non-zero and of the
    same sign (both positive, in any sensible configuration) and whose
    schedule, if any, has no scale factor below one,
    [apply_update_every(global_step)] returns an integer that is at least
    [1], at every step. *)
Theorem apply_update_every_at_least_one env b p s n vb global_step :
  VirtualBatching.__init__ env b p s n = Py.Ok vb →
  0 < b * VirtualBatching.batch_size_per_step vb →
  optax.positive_scales s →
  ∃ k, VirtualBatching.apply_update_every vb global_step = Py.Ok k ∧ 1 ≤ k.
Proof.
  intros (Hnz & Hmod & _ & ->)%init_Ok Hsign Hs.
  unfold VirtualBatching.apply_update_every, VirtualBatching.batch_size,
    VirtualBatching.batch_size_per_step in *. simpl in *.
  set (d := p * VirtualBatching.resolved_devices env n) in *.
  rewrite floordiv_nonzero by done.
  apply Z.mod_divide in Hmod as [k0 ->]; [|done].
  assert (1 ≤ k0) as Hk0 by nia.
  assert (∃ k, 1 ≤ k ∧
            optax.schedule
              {| optax.init_value := k0 * d;
                 optax.boundaries_and_scales := s |} global_step = k * d)
    as (k & Hk & ->).
  { unfold optax.schedule. simpl. destruct s as [m|].
    - apply schedule_fold_multiple; [|done].
      apply sorted_items_Forall. by apply Hs.
    - by exists k0. }
  exists k. split; [|done]. by rewrite Z.div_mul.
Qed.

Lemma apply_update_every_at_least_one_witness :
  ∃ k, VirtualBatching.apply_update_every
         (example.batching 128 (Some example.schedule_4_2)) 5 = Py.Ok k
       ∧ 1 ≤ k.
Proof.
  apply (apply_update_every_at_least_one (example.host 1) 128 32
           (Some example.schedule_4_2) (Some 2));
    [by vm_compute | by vm_compute |].
  intros m [= <-]. apply map_Forall_to_list.
  vm_compute. repeat constructor; discriminate.
Defined.

(** C5, as stated, fails: [batch_size_init=0] passes the divisibility
    check of the constructor ([0 % 64 == 0]), and the object answers [0]. *)
Lemma apply_update_every_zero_batch :
  ¬ (∀ vb,
       VirtualBatching.__init__ (example.host 1) 0 32 None (Some 2) = Py.Ok vb →
       ∃ k, VirtualBatching.apply_update_every vb 0 = Py.Ok k ∧ 1 ≤ k).
Proof.
  intros H. destruct (H (example.batching 0 None) eq_refl) as (k & Hk & Hge).
  vm_compute in Hk. injection Hk as <-. lia.
Qed.

(** C6.  [data_seen(global_step)] is [global_step * batch_size_per_step],
    the product of the step and the two constructor arguments on a
    constructed object; with [batch_size_per_device_per_step=32] and
    [num_devices=2], [data_seen(10)] is [640]. *)
Theorem data_seen_product :
  (∀ vb global_step,
     VirtualBatching.data_seen vb global_step =
     global_step * VirtualBatching.batch_size_per_step vb)
  ∧ (∀ env b p s n vb global_step,
       VirtualBatching.__init__ env b p s n = Py.Ok vb →
       VirtualBatching.data_seen vb global_step =
       global_step * (p * VirtualBatching.resolved_devices env n))
  ∧ (∀ env b s vb,
       VirtualBatching.__init__ env b 32 s (Some 2) = Py.Ok vb →
       VirtualBatching.data_seen vb 10 = 640).
Proof.
  repeat split.
  - intros env b p s n vb global_step (_ & _ & _ & ->)%init_Ok. done.
  - intros env b s vb (_ & _ & _ & ->)%init_Ok. done.
Qed.

Lemma data_seen_product_witness :
  VirtualBatching.data_seen (example.batching 128 None) 10 = 640.
Proof.
  destruct data_seen_product as (_ & _ & H640).
  apply (H640 (example.host 1) 128 None). reflexivity.
Defined.

(** ** VirtualBatching: the runtime environment and purity *)

(** C7, as the code has it.  When the caller passes [num_devices], the
    constructor never consults the runtime: the same arguments give the
    same outcome on any two hosts, and the object stores the caller's
    count.  When the caller leaves [num_devices] out, the object stores the
    runtime's [jax.device_count()].  The queries receive only the object
    and the step. *)
Theorem explicit_num_devices_ignores_runtime :
  (∀ env1 env2 b p s n,
     VirtualBatching.__init__ env1 b p s (Some n) =
     VirtualBatching.__init__ env2 b p s (Some n))
  ∧ (∀ env b p s n vb,
       VirtualBatching.__init__ env b p s (Some n) = Py.Ok vb →
       VirtualBatching.num_devices vb = n)
  ∧ (∀ env b p s vb,
       VirtualBatching.__init__ env b p s None = Py.Ok vb →
       VirtualBatching.num_devices vb = jax.device_count env).
Proof.
  repeat split.
  - intros env b p s n vb (_ & _ & _ & ->)%init_Ok. done.
  - intros env b p s vb (_ & _ & _ & ->)%init_Ok. done.
Qed.

Lemma explicit_num_devices_ignores_runtime_witness :
  VirtualBatching.num_devices (example.batching 128 None) = 2
  ∧ VirtualBatching.num_devices
      {| VirtualBatching.batch_size_init := 128;
         VirtualBatching.batch_size_per_device_per_step := 32;
         VirtualBatching.scale_schedule := None;
         VirtualBatching.num_devices := 4;
         VirtualBatching._batch_size_fn :=
           {| optax.init_value := 128;
              optax.boundaries_and_scales := None |} |} = 4.
Proof.
  destruct explicit_num_devices_ignores_runtime as (_ & Hsome & Hnone). split.
  - apply (Hsome (example.host 1) 128 32 None 2). reflexivity.
  - apply (Hnone (example.host 4) 128 32 None). reflexivity.
Defined.

(** C7, as stated, fails: with [num_devices] left out, the same arguments
    construct an object on a host with one device and raise on a host with
    two. *)
Lemma omitted_num_devices_reads_runtime :
  ¬ (VirtualBatching.__init__ (example.host 1) 64 64 None None =
     VirtualBatching.__init__ (example.host 2) 64 64 None None).
Proof. vm_compute. discriminate. Qed.

(** C8.  The queries keep no state: a sequence of calls, of any length and
    in any order, leaves the object as it was; every answer in the sequence
    is the answer the same call gives on the object as constructed; a
    query gives the same answer after any two histories of calls; and on
    a constructed object every answer is a function of the constructor's
    arguments and the step. *)
Theorem queries_pure :
  (∀ vb qs,
     (VirtualBatching.calls qs vb).2 = vb
     ∧ (VirtualBatching.calls qs vb).1 =
       (λ q, (VirtualBatching.call q vb).1) <$> qs)
  ∧ (∀ vb qs qs' q,
       (VirtualBatching.call q (VirtualBatching.calls qs vb).2).1 =
       (VirtualBatching.call q (VirtualBatching.calls qs' vb).2).1)
  ∧ (∀ env b p s n vb qs q,
       VirtualBatching.__init__ env b p s n = Py.Ok vb →
       (VirtualBatching.call q (VirtualBatching.calls qs vb).2).1 =
       VirtualBatching.answer b p s
         (VirtualBatching.resolved_devices env n) q).
Proof.
  split; [|split].
  - intros vb qs. split; [apply calls_object | apply calls_answers].
  - intros vb qs qs' q. by rewrite !calls_object.
  - intros env b p s n vb qs q (Hnz & _ & _ & ->)%init_Ok.
    rewrite calls_object. destruct q; try done.
    simpl. unfold VirtualBatching.apply_update_every.
    by rewrite floordiv_nonzero.
Qed.

Lemma queries_pure_witness :
  (VirtualBatching.call (VirtualBatching.ApplyUpdateEvery 5)
     (VirtualBatching.calls
        [VirtualBatching.DataSeen 3; VirtualBatching.BatchSize 12;
         VirtualBatching.ApplyUpdateEvery 5]
        (example.batching 128 (Some example.schedule_4_2))).2).1 =
  Py.Ok 8.
Proof.
  destruct queries_pure as (_ & _ & Hanswer).
  rewrite (Hanswer (example.host 1) 128 32 (Some example.schedule_4_2)
             (Some 2)); by vm_compute.
Defined.

(** ** ArrayConcatenater *)

Section concatenater.

Context {A : Type}.
Implicit Types (c : ArrayConcatenater.t A) (array : list A).

Lemma fed_init max_len :
  ArrayConcatenater.fed (A := A) max_len []
    (ArrayConcatenater.__init__ (Some max_len)).
Proof. split; simpl; try done. by rewrite take_nil. Qed.

Lemma append_room max_len c array :
  ArrayConcatenater._max_len c = Some max_len →
  ArrayConcatenater._current_len c < max_len →
  ArrayConcatenater.append c array =
  {| ArrayConcatenater._array :=
       ArrayConcatenater._array c
       ++ [take (Z.to_nat (max_len - ArrayConcatenater._current_len c)) array];
     ArrayConcatenater._max_len := Some max_len;
     ArrayConcatenater._current_len :=
       ArrayConcatenater._current_len c
       + Z.of_nat (length
           (take (Z.to_nat (max_len - ArrayConcatenater._current_len c))
                 array)) |}.
Proof.
  intros Hmax Hlt. unfold ArrayConcatenater.append, ArrayConcatenater.to_append.
  rewrite Hmax. destruct (decide _); [|done].
  unfold Py.slice_to. destruct (decide _); [|lia]. done.
Qed.

Lemma append_full max_len c array :
  ArrayConcatenater._max_len c = Some max_len →
  max_len ≤ ArrayConcatenater._current_len c →
  ArrayConcatenater.append c array = c.
Proof.
  intros Hmax Hge. unfold ArrayConcatenater.append, ArrayConcatenater.to_append.
  rewrite Hmax. destruct (decide _); [lia|done].
Qed.

Lemma fed_append max_len arrays c array :
  ArrayConcatenater.fed max_len arrays c →
  ArrayConcatenater.fed max_len (arrays ++ [array]) (ArrayConcatenater.append c array).
Proof.
  intros [Hmax Hcur Hstored Hne Hstart].
  destruct (decide (ArrayConcatenater._current_len c < max_len)) as [Hlt|Hge].
  - rewrite (append_room max_len) by done.
    assert (length (concat arrays) < Z.to_nat max_len)%nat as Hshort.
    { rewrite Hcur, Hstored, length_take in Hlt. lia. }
    rewrite take_ge in Hstored by lia.
    split; simpl.
    + done.
    + rewrite concat_app, length_app. simpl. rewrite app_nil_r. lia.
    + rewrite !concat_app. simpl. rewrite !app_nil_r.
      rewrite take_app_ge by lia. rewrite Hstored. do 2 f_equal.
      rewrite Hcur, Hstored. lia.
    + lia.
    + intros _ _. by destruct (ArrayConcatenater._array c).
  - rewrite (append_full max_len) by (done || lia).
    split; try done.
    + rewrite Hstored, concat_app. simpl. rewrite app_nil_r.
      rewrite take_app_le; [done|].
      rewrite Hcur, Hstored, length_take in Hge. lia.
    + intros Hpos _. apply Hstart; [done|].
      intros ->. simpl in *. rewrite take_nil in Hstored.
      rewrite Hcur, Hstored in Hge. simpl in Hge. lia.
Qed.

Lemma fed_appends max_len (arrays : list (list A)) :
  ArrayConcatenater.fed max_len arrays
    (ArrayConcatenater.appends (ArrayConcatenater.__init__ (Some max_len))
       arrays).
Proof.
  induction arrays as [|array arrays IH] using rev_ind.
  - apply fed_init.
  - unfold ArrayConcatenater.appends. rewrite foldl_snoc.
    by apply fed_append.
Qed.

(** C9.  After any sequence of [append] calls on a concatenater built with
    a bound [max_len]: the stored data is the first [max_len] elements of
    the data appended; the counter is its length; the length of
    [asarray()], whenever it returns, is at most [max_len], and so is the
    stored length for a bound that is not negative; [asarray()] does
    return once something was appended under a positive bound; an
    [append] below capacity stores its argument cut to the remaining
    capacity, and an [append] at capacity stores nothing. *)
Theorem appends_bounded (max_len : Z) (arrays : list (list A)) :
  let c :=
    ArrayConcatenater.appends (ArrayConcatenater.__init__ (Some max_len))
      arrays in
  concat (ArrayConcatenater._array c) =
    take (Z.to_nat max_len) (concat arrays)
  ∧ ArrayConcatenater._current_len c =
    Z.of_nat (length (concat (ArrayConcatenater._array c)))
  ∧ (0 ≤ max_len → ArrayConcatenater._current_len c ≤ max_len)
  ∧ (∀ a, ArrayConcatenater.asarray c = Py.Ok a →
          Z.of_nat (length a) ≤ max_len)
  ∧ (0 < max_len → arrays ≠ [] →
     ArrayConcatenater.asarray c =
     Py.Ok (take (Z.to_nat max_len) (concat arrays)))
  ∧ (∀ array,
       ArrayConcatenater._current_len c < max_len →
       ArrayConcatenater._array (ArrayConcatenater.append c array) =
       ArrayConcatenater._array c
       ++ [take (Z.to_nat (max_len - ArrayConcatenater._current_len c))
             array])
  ∧ (∀ array,
       max_len ≤ ArrayConcatenater._current_len c →
       ArrayConcatenater.append c array = c).
Proof.
  intros c. destruct (fed_appends max_len arrays) as
    [Hmax Hcur Hstored Hne Hstart]. fold c in Hmax, Hcur, Hstored, Hne, Hstart.
  split; [done|]. split; [done|]. split.
  { intros Hpos. rewrite Hcur, Hstored, length_take. lia. }
  split.
  { intros a Ha. unfold ArrayConcatenater.asarray in Ha.
    assert (ArrayConcatenater._array c ≠ []) as Hsome.
    { intros Hnil. rewrite Hnil in Ha. discriminate. }
    assert (a = concat (ArrayConcatenater._array c)) as ->.
    { destruct (ArrayConcatenater._array c); [done|]. by injection Ha. }
    rewrite Hstored, length_take. apply Hne in Hsome. lia. }
  split.
  { intros Hpos Harrays. unfold ArrayConcatenater.asarray.
    specialize (Hstart Hpos Harrays).
    destruct (ArrayConcatenater._array c); [done|]. by rewrite Hstored. }
  split.
  - intros array Hlt. by rewrite (append_room max_len).
  - intros array Hge. by apply (append_full max_len).
Qed.

End concatenater.

Lemma appends_bounded_witness :
  ArrayConcatenater.asarray
    (ArrayConcatenater.appends (ArrayConcatenater.__init__ (Some 5))
       [[1; 2; 3]; [4; 5; 6]; [7]]) = Py.Ok [1; 2; 3; 4; 5]
  ∧ ArrayConcatenater.append
      (ArrayConcatenater.appends (ArrayConcatenater.__init__ (Some 5))
         [[1; 2; 3]; [4; 5; 6]; [7]]) [8; 9]
    = ArrayConcatenater.appends (ArrayConcatenater.__init__ (Some 5))
        [[1; 2; 3]; [4; 5; 6]; [7]].
Proof.
  destruct (appends_bounded 5 [[1; 2; 3]; [4; 5; 6]; [7]])
    as (_ & _ & _ & _ & Hreturns & _ & Hfull).
  split.
  - apply Hreturns; [lia | discriminate].
  - apply Hfull. vm_compute. discriminate.
Defined.

(** ** per_class_disparity *)

(** Counts over a confusion matrix: a diagonal entry is one of the terms of
    the sum of its row, and the trace is at most the total.  A division of
    such counts by zero is therefore [0 / 0]. *)
Lemma sum_nat_elem (f : nat → nat) (l : list nat) i :
  i ∈ l → (f i ≤ np.sum_nat (f <$> l))%nat.
Proof.
  induction l as [|j l IH]; [by intros ?%elem_of_nil|].
  intros [->|Hi]%elem_of_cons; csimpl; [lia|].
  specialize (IH Hi). lia.
Qed.

Lemma sum_nat_mono (f g : nat → nat) (l : list nat) :
  (∀ i, i ∈ l → (f i ≤ g i)%nat) →
  (np.sum_nat (f <$> l) ≤ np.sum_nat (g <$> l))%nat.
Proof.
  induction l as [|j l IH]; intros Hfg; csimpl; [lia|].
  pose proof (Hfg j (list_elem_of_here _ _)).
  assert (np.sum_nat (f <$> l) ≤ np.sum_nat (g <$> l))%nat.
  { apply IH. intros i Hi. apply Hfg. by apply list_elem_of_further. }
  lia.
Qed.

Lemma diagonal_le_row_sum cm i :
  (i < np.dim cm)%nat →
  (np.entry cm i i ≤ np.sum_nat (np.entry cm i <$> seq 0 (np.dim cm)))%nat.
Proof.
  intros Hi. apply (sum_nat_elem (np.entry cm i)).
  apply elem_of_seq. lia.
Qed.

Lemma trace_le_sum cm : (np.sum_nat (np.diagonal cm) ≤ np.sum cm)%nat.
Proof.
  unfold np.sum, np.diagonal, np.sum_axis1. apply sum_nat_mono.
  intros i Hi%elem_of_seq. apply diagonal_le_row_sum. lia.
Qed.

Lemma lt_true x y : np.lt (Some x) (Some y) = true ↔ (x < y)%Q.
Proof.
  unfold np.lt. rewrite Qlt_alt.
  destruct (x ?= y)%Q; split; intros; done.
Qed.

Lemma lt_false x y : np.lt (Some x) (Some y) = false ↔ (y <= x)%Q.
Proof.
  rewrite <- not_true_iff_false, lt_true. split.
  - apply Qnot_lt_le.
  - intros Hle Hlt. by apply (Qlt_not_le x y).
Qed.

Lemma ne_one_true a : np.ne (Some a) (np.of_Z 1) = true ↔ ¬ (a == 1)%Q.
Proof.
  unfold np.ne, np.of_Z. rewrite negb_true_iff, <- not_true_iff_false.
  rewrite Qeq_bool_iff. reflexivity.
Qed.

Lemma div_defined c a :
  ¬ (a == 1)%Q →
  np.div (np.sub (np.of_Z 1) (Some c)) (np.sub (np.of_Z 1) (Some a)) =
  Some ((1 - c) / (1 - a))%Q.
Proof.
  intros Hne. unfold np.div, np.sub, np.of_Z.
  destruct (Qeq_bool (inject_Z 1 - a) 0) eqn:Hz; [|done].
  apply Qeq_bool_iff in Hz. exfalso. apply Hne.
  change (inject_Z 1) with 1%Q in Hz. lra.
Qed.

Lemma min_step avg_acc accs class_acc m :
  metrics.capped_min avg_acc accs m →
  ∃ m',
    (if np.lt (np.sub class_acc avg_acc) (Some m)
     then np.sub class_acc avg_acc else Some m) = Some m'
    ∧ metrics.capped_min avg_acc (accs ++ [class_acc]) m'.
Proof.
  intros (Hle & Hlow & Hatt).
  assert (∀ m', (m' <= m)%Q → ∀ c a,
            Some c ∈ accs → avg_acc = Some a → (m' <= c - a)%Q) as Hlow'.
  { intros m' Hm' c a Hc Ha. specialize (Hlow c a Hc Ha). lra. }
  destruct class_acc as [c|], avg_acc as [a|]; cbn [np.sub].
  - destruct (np.lt (Some (c - a)%Q) (Some m)) eqn:Hlt.
    + apply lt_true in Hlt. exists (c - a)%Q. split; [done|].
      split; [lra|]. split.
      * intros c' a' [Hc'|[= <-]%list_elem_of_singleton]%elem_of_app [= <-].
        -- apply Hlow'; [lra|done..].
        -- lra.
      * right. exists c, a. split; [|done].
        apply elem_of_app. right. by apply list_elem_of_singleton.
    + apply lt_false in Hlt. exists m. split; [done|].
      split; [done|]. split.
      * intros c' a' [Hc'|[= <-]%list_elem_of_singleton]%elem_of_app [= <-].
        -- by apply Hlow.
        -- done.
      * destruct Hatt as [->|(c' & a' & Hc' & Ha' & ->)]; [by left|].
        right. exists c', a'. split; [|done]. apply elem_of_app. by left.
  - exists m. split; [done|]. split; [done|]. split; [by intros ? ? ? [=]|].
    destruct Hatt as [->|(c' & a' & _ & [=] & _)]. by left.
  - exists m. split; [done|]. split; [done|]. split.
    + intros c' a' [Hc'|[=]%list_elem_of_singleton]%elem_of_app Ha'.
      by apply Hlow.
    + destruct Hatt as [->|(c' & a' & Hc' & Ha' & ->)]; [by left|].
      right. exists c', a'. split; [|done]. apply elem_of_app. by left.
  - exists m. split; [done|]. split; [done|]. split; [by intros ? ? ? [=]|].
    destruct Hatt as [->|(c' & a' & _ & [=] & _)]. by left.
Qed.

Lemma max_step avg_acc accs class_acc r :
  metrics.floored_max avg_acc accs r →
  ∃ r',
    (if np.ne avg_acc (np.of_Z 1) then
       if np.gt
            (np.div (np.sub (np.of_Z 1) class_acc)
                    (np.sub (np.of_Z 1) avg_acc))
            (Some r)
       then np.div (np.sub (np.of_Z 1) class_acc)
                   (np.sub (np.of_Z 1) avg_acc)
       else Some r
     else Some r) = Some r'
    ∧ metrics.floored_max avg_acc (accs ++ [class_acc]) r'.
Proof.
  intros (Hge & Hupp & Hatt).
  assert (metrics.floored_max avg_acc accs r →
          (∀ c a, class_acc = Some c → avg_acc = Some a → ¬ (a == 1)%Q →
                  ((1 - c) / (1 - a) <= r)%Q) →
          metrics.floored_max avg_acc (accs ++ [class_acc]) r) as Hkeep.
  { intros _ Hnew. split; [done|]. split.
    - intros c a [Hc|Hc%list_elem_of_singleton]%elem_of_app Ha Hne.
      + by apply Hupp.
      + by apply Hnew.
    - destruct Hatt as [->|(c & a & Hc & Ha & Hne & ->)]; [by left|].
      right. exists c, a. split; [|done]. apply elem_of_app. by left. }
  destruct avg_acc as [a|].
  - destruct (np.ne (Some a) (np.of_Z 1)) eqn:Hne.
    + apply ne_one_true in Hne. destruct class_acc as [c|].
      * rewrite div_defined by done. unfold np.gt.
        destruct (np.lt (Some r) (Some ((1 - c) / (1 - a))%Q)) eqn:Hlt.
        -- apply lt_true in Hlt. eexists. split; [done|].
           split; [lra|]. split.
           ++ intros c' a' [Hc'|[= <-]%list_elem_of_singleton]%elem_of_app
                [= <-] _.
              ** specialize (Hupp c' a Hc' eq_refl Hne). lra.
              ** lra.
           ++ right. exists c, a. split; [|done].
              apply elem_of_app. right. by apply list_elem_of_singleton.
        -- apply lt_false in Hlt. exists r. split; [done|].
           apply Hkeep; [done|]. by intros c' a' [= <-] [= <-] _.
      * exists r. split; [done|]. apply Hkeep; [done|]. by intros ? ? [=].
    + exists r. split; [done|]. apply Hkeep; [done|].
      intros c' a' _ [= <-] Hne'. by apply ne_one_true in Hne'; congruence.
  - exists r. split.
    + by destruct class_acc.
    + apply Hkeep; [done|]. by intros ? ? _ [=].
Qed.

Lemma loop_body_invariant avg_acc accs l class_name class_acc class_f1 :
  metrics.loop_invariant avg_acc accs l →
  metrics.loop_invariant avg_acc (accs ++ [class_acc])
    (metrics.loop_body avg_acc l (class_name, class_acc, class_f1)).
Proof.
  intros (m & r & Hm & Hr & Hmin & Hmax).
  destruct (min_step avg_acc accs class_acc m Hmin) as (m' & Hm' & Hmin').
  destruct (max_step avg_acc accs class_acc r Hmax) as (r' & Hr' & Hmax').
  exists m', r'. unfold metrics.loop_body. cbn [metrics.min_disparity_abs
    metrics.max_disparity_rel]. rewrite Hm, Hr. done.
Qed.

Lemma loop_invariant_foldl avg_acc items accs l :
  metrics.loop_invariant avg_acc accs l →
  metrics.loop_invariant avg_acc (accs ++ ((λ item, item.1.2) <$> items))
    (foldl (metrics.loop_body avg_acc) l items).
Proof.
  revert accs l.
  induction items as [|[[class_name class_acc] class_f1] items IH];
    intros accs l Hinv; cbn [foldl fmap list_fmap].
  - by rewrite app_nil_r.
  - rewrite cons_middle, app_assoc. apply IH. by apply loop_body_invariant.
Qed.

Lemma zip_strict_Ok {A B C} (a : list A) (b : list B) (c : list C) items :
  metrics.zip_strict a b c = Py.Ok items →
  (λ item, item.1.1) <$> items = a
  ∧ (λ item, item.1.2) <$> items = b
  ∧ (λ item, item.2) <$> items = c.
Proof.
  revert b c items.
  induction a as [|x a IH]; intros [|y b] [|z c] items; simpl;
    try discriminate.
  - by intros [= <-].
  - destruct (metrics.zip_strict a b c) as [rest|e] eqn:Hrest; simpl;
      [|discriminate].
    intros [= <-]. destruct (IH b c rest Hrest) as (Ha & Hb & Hc).
    rewrite !fmap_cons. cbn [fst snd]. by rewrite Ha, Hb, Hc.
Qed.

(** C10.  Whenever [per_class_disparity] returns, with whatever the
    library functions compute, its mapping holds under
    ['min_disparity_abs'] a number that is at most [0] and under
    ['max_disparity_rel'] a number that is at least [1]; the first is the
    least of [0] and the differences between a class accuracy and the
    overall accuracy, the second the greatest of [1] and the ratios
    [(1 - class accuracy) / (1 - overall accuracy)], which count only when
    the overall accuracy is not [1]. *)
Theorem per_class_disparity_bounds {Array : Type}
    (argmax : Array → Py.result (list nat))
    (confusion_matrix : list nat → list nat → Py.result np.square)
    (f1_score : list nat → list nat → list nat → Py.result (list np.float))
    (logits labels : Array) (class_names : list string)
    (stats : gmap string np.float) :
  metrics.per_class_disparity argmax confusion_matrix f1_score
    logits labels class_names = Py.Ok stats →
  ∃ predictions labels' cm m r,
    argmax logits = Py.Ok predictions
    ∧ argmax labels = Py.Ok labels'
    ∧ confusion_matrix labels' predictions = Py.Ok cm
    ∧ stats !! "min_disparity_abs"%string = Some (Some m)
    ∧ stats !! "max_disparity_rel"%string = Some (Some r)
    ∧ (m <= 0)%Q ∧ (1 <= r)%Q
    ∧ metrics.capped_min
        (metrics.avg_acc_of cm) (metrics.per_class_mean_of cm) m
    ∧ metrics.floored_max
        (metrics.avg_acc_of cm) (metrics.per_class_mean_of cm) r.
Proof.
  unfold metrics.per_class_disparity.
  destruct (argmax logits) as [predictions|e] eqn:Hp; simpl; [|discriminate].
  destruct (argmax labels) as [labels'|e] eqn:Hl; simpl; [|discriminate].
  destruct (confusion_matrix labels' predictions) as [cm|e] eqn:Hcm; simpl;
    [|discriminate].
  destruct (f1_score _ _ _) as [per_class_f1|e]; simpl; [|discriminate].
  destruct (metrics.zip_strict _ _ _) as [items|e] eqn:Hzip; simpl;
    [|discriminate].
  intros [= <-]. apply zip_strict_Ok in Hzip as (_ & Haccs & _).
  destruct (loop_invariant_foldl (metrics.avg_acc_of cm) items []
              {| metrics.stats := ∅;
                 metrics.min_disparity_abs := np.of_Z 0;
                 metrics.max_disparity_rel := np.of_Z 1 |})
    as (m & r & Hm & Hr & Hmin & Hmax).
  { exists 0%Q, 1%Q. split; [done|]. split; [done|]. split.
    - split; [done|]. split; [|by left]. by intros c a ?%elem_of_nil.
    - split; [done|]. split; [|by left]. by intros c a ?%elem_of_nil. }
  rewrite app_nil_l, Haccs in Hmin, Hmax.
  exists predictions, labels', cm, m, r.
  split; [done|]. split; [done|]. split; [done|]. split.
  { rewrite lookup_insert_ne by done. by rewrite lookup_insert_eq, Hm. }
  split.
  { by rewrite lookup_insert_eq, Hr. }
  split; [apply Hmin|]. split; [apply Hmax|]. done.
Qed.

Lemma per_class_disparity_bounds_witness :
  ∃ stats m r,
    metrics.per_class_disparity
      reference.argmax reference.confusion_matrix reference.f1_score
      example.logits example.labels example.class_names = Py.Ok stats
    ∧ stats !! "min_disparity_abs"%string = Some (Some m)
    ∧ stats !! "max_disparity_rel"%string = Some (Some r)
    ∧ (m <= 0)%Q ∧ (1 <= r)%Q.
Proof.
  destruct (metrics.per_class_disparity
              reference.argmax reference.confusion_matrix reference.f1_score
              example.logits example.labels example.class_names)
    as [stats|e] eqn:Hrun.
  - destruct (per_class_disparity_bounds _ _ _ _ _ _ _ Hrun)
      as (_ & _ & _ & m & r & _ & _ & _ & Hm & Hr & Hle & Hge & _).
    by exists stats, m, r.
  - vm_compute in Hrun. discriminate.
Defined.

(** On the six samples above the overall accuracy is [5/6] and class [b]
    has accuracy [2/3]: the function reports [2/3 - 5/6] and
    [(1 - 2/3) / (1 - 5/6)]. *)
Example per_class_disparity_run :
  ∃ stats m r,
    metrics.per_class_disparity
      reference.argmax reference.confusion_matrix reference.f1_score
      example.logits example.labels example.class_names = Py.Ok stats
    ∧ stats !! "min_disparity_abs"%string = Some (Some m)
    ∧ stats !! "max_disparity_rel"%string = Some (Some r)
    ∧ (m == - (1 # 6))%Q ∧ (r == 2)%Q.
Proof.
  destruct (metrics.per_class_disparity
              reference.argmax reference.confusion_matrix reference.f1_score
              example.logits example.labels example.class_names)
    as [stats|e] eqn:Hrun; vm_compute in Hrun; [|discriminate].
  injection Hrun as <-. eexists _, _, _. split; [reflexivity|].
  split; [vm_compute; reflexivity|]. split; [vm_compute; reflexivity|].
  split; reflexivity.
Qed.
